(** * fastapi_yt: the job-tracking facade of [main.py]

    A shallow embedding of [main.py]: the two module-level dictionaries
    ([progress_store], [file_store]), the progress hook handed to the
    media library, the orchestrator [start_download] and the three
    endpoints.  The media library (yt_dlp) is not part of the repository;
    a call into it is represented by what the orchestrator can see of it:
    the events passed to the progress hooks, and how the call ended.

    Python strings are modelled as Rocq strings whose characters are the
    code points below 256.  Python floats are IEEE binary64 values, taken
    from the Standard Library's [spec_float] with [prec = 53] and
    [emax = 1024]. *)

From Stdlib Require Import ZArith NArith String Ascii List.
From Stdlib Require Import Floats.SpecFloat.
From stdpp Require Import gmap strings list fin_maps.

Local Open Scope string_scope.

(** ** Python strings *)

Module PyStr.

Definition ord (c : ascii) : N := N_of_ascii c.

(** [str.isspace] on one character, for code points below 256. *)
Definition isspace (c : ascii) : bool :=
  let n := ord c in
  ((9 <=? n) && (n <=? 13) || (28 <=? n) && (n <=? 32)
   || (n =? 133) || (n =? 160))%N.

Definition isdigit (c : ascii) : bool :=
  let n := ord c in ((48 <=? n) && (n <=? 57))%N.

Fixpoint lstrip (s : string) : string :=
  match s with
  | EmptyString => EmptyString
  | String c t => if isspace c then lstrip t else s
  end.

Fixpoint rstrip (s : string) : string :=
  match s with
  | EmptyString => EmptyString
  | String c t =>
      match rstrip t with
      | EmptyString => if isspace c then EmptyString else String c EmptyString
      | t' => String c t'
      end
  end.

(** [s.strip()] *)
Definition strip (s : string) : string := rstrip (lstrip s).

(** [s.replace(old, new)] for a one-character [old]. *)
Fixpoint replace (old : ascii) (new : string) (s : string) : string :=
  match s with
  | EmptyString => EmptyString
  | String c t =>
      if Ascii.eqb c old then new ++ replace old new t
      else String c (replace old new t)
  end.

(** [re.sub('[...]', repl, s)] for a character class given by its members. *)
Fixpoint sub_class (class : list ascii) (repl : string) (s : string) : string :=
  match s with
  | EmptyString => EmptyString
  | String c t =>
      if existsb (Ascii.eqb c) class then repl ++ sub_class class repl t
      else String c (sub_class class repl t)
  end.

(** [s.rfind(c)] for a one-character [c]: the index of the last
    occurrence, or -1. *)
Fixpoint rfind_from (c : ascii) (s : string) (i : Z) (found : Z) : Z :=
  match s with
  | EmptyString => found
  | String a t => rfind_from c t (i + 1) (if Ascii.eqb a c then i else found)
  end.

Definition rfind (c : ascii) (s : string) : Z := rfind_from c s 0 (-1).

(** The slices [s[:i]] and [s[i:]] for [0 <= i]. *)
Definition prefix_to (i : Z) (s : string) : string :=
  String.substring 0 (Z.to_nat i) s.

Definition suffix_from (i : Z) (s : string) : string :=
  String.substring (Z.to_nat i) (String.length s - Z.to_nat i) s.

End PyStr.

(** ** Python floats: [float(str)] *)

Module PyFloat.

Definition prec : Z := 53.
Definition emax : Z := 1024.

(** The float nearest to an integer (exact for the literals of the
    source: [0.0], [99.0], [100.0]). *)
Definition of_Z (z : Z) : spec_float := binary_normalize prec emax z 0 false.

(** Characters that [float] strips at both ends: the ASCII whitespace
    of the C locale, and the non-ASCII spaces, which the conversion to
    ASCII turns into a blank first. *)
Definition isspace (c : ascii) : bool :=
  let n := PyStr.ord c in
  ((9 <=? n) && (n <=? 13) || (n =? 32) || (n =? 133) || (n =? 160))%N.

Fixpoint lstrip (l : list ascii) : list ascii :=
  match l with
  | c :: t => if isspace c then lstrip t else l
  | [] => []
  end.

Definition strip (l : list ascii) : list ascii :=
  rev (lstrip (rev (lstrip l))).

(** Underscores are dropped when each one stands between two digits;
    any other underscore makes the literal invalid. [prev] is the
    previous character, if any. *)
Fixpoint drop_underscores (prev : option ascii) (l : list ascii)
  : option (list ascii) :=
  let prev_digit := from_option PyStr.isdigit false prev in
  let prev_under := from_option (Ascii.eqb "_") false prev in
  match l with
  | [] => if prev_under then None else Some []
  | c :: t =>
      if Ascii.eqb c "_" then
        if prev_digit then drop_underscores (Some c) t else None
      else if prev_under && negb (PyStr.isdigit c) then None
      else cons c <$> drop_underscores (Some c) t
  end.

Fixpoint take_digits (l : list ascii) : list ascii * list ascii :=
  match l with
  | c :: t =>
      if PyStr.isdigit c then
        let '(ds, r) := take_digits t in (c :: ds, r)
      else ([], l)
  | [] => ([], [])
  end.

Definition digits_value (ds : list ascii) : N :=
  fold_left (fun acc c => (10 * acc + (PyStr.ord c - 48))%N) ds 0%N.

Definition take_sign (l : list ascii) : bool * list ascii :=
  match l with
  | "-"%char :: t => (true, t)
  | "+"%char :: t => (false, t)
  | _ => (false, l)
  end.

Definition lower (c : ascii) : ascii :=
  let n := PyStr.ord c in
  if ((65 <=? n) && (n <=? 90))%N then ascii_of_N (n + 32) else c.

(** The exponent part: nothing, or [e]/[E], an optional sign and at
    least one digit, up to the end of the literal. *)
Definition parse_exponent (l : list ascii) : option Z :=
  match l with
  | [] => Some 0%Z
  | c :: t =>
      if Ascii.eqb (lower c) "e" then
        let '(neg, t') := take_sign t in
        match take_digits t' with
        | ((_ :: _) as ds, []) =>
            let v := Z.of_N (digits_value ds) in
            Some (if neg then (- v)%Z else v)
        | _ => None
        end
      else None
  end.

(** A decimal literal [digits [. digits] [exponent]] with at least one
    digit before the exponent, as a mantissa and a power of ten. *)
Definition parse_decimal (l : list ascii) : option (N * Z) :=
  let '(int_ds, r1) := take_digits l in
  let '(frac_ds, r2) :=
    match r1 with
    | "."%char :: t => take_digits t
    | _ => ([], r1)
    end in
  match (int_ds ++ frac_ds)%list with
  | [] => None
  | ds =>
      e ← parse_exponent r2;
      Some (digits_value ds, (e - Z.of_nat (length frac_ds))%Z)
  end.

(** The binary64 value nearest to [m * 10^e10] (ties to even). *)
Definition of_decimal (sign : bool) (m : N) (e10 : Z) : spec_float :=
  match m with
  | N0 => S754_zero sign
  | Npos p =>
      if (0 <=? e10)%Z then
        binary_round prec emax sign (Z.to_pos (Zpos p * 10 ^ e10)) 0
      else
        let '(q, e, loc) :=
          SFdiv_core_binary prec emax (Zpos p) 0 (10 ^ (- e10)) 0 in
        binary_round_aux prec emax sign q e loc
  end.

(** [float(s)]: [None] stands for the [ValueError] it raises. *)
Definition float (s : string) : option spec_float :=
  l ← drop_underscores None (strip (list_ascii_of_string s));
  let '(neg, body) := take_sign l in
  let word := string_of_list_ascii (map lower body) in
  if String.eqb word "inf" || String.eqb word "infinity" then
    Some (S754_infinity neg)
  else if String.eqb word "nan" then Some S754_nan
  else
    '(m, e10) ← parse_decimal body;
    Some (of_decimal neg m e10).

Definition f0 : spec_float := Eval vm_compute in of_Z 0.
Definition f99 : spec_float := Eval vm_compute in of_Z 99.
Definition f100 : spec_float := Eval vm_compute in of_Z 100.

End PyFloat.

(** ** Python numbers stored as progress values

    [progress_store] is annotated [dict[str, float]], and the code stores
    floats in it everywhere but in the failure handler, which stores the
    integer [-1]. *)

Inductive pynum :=
  | PyF (f : spec_float)
  | PyI (z : Z).

Module PyNum.

(** Exact comparison of an integer with a float, as Python does it. *)
Definition Z_compare_float (z : Z) (f : spec_float) : option comparison :=
  match f with
  | S754_nan => None
  | S754_infinity s => Some (if s then Gt else Lt)
  | S754_zero _ => Some (z ?= 0)%Z
  | S754_finite s m e =>
      let v := if s then Zneg m else Zpos m in
      Some (if (0 <=? e)%Z then (z ?= v * 2 ^ e)%Z
            else (z * 2 ^ (- e) ?= v)%Z)
  end.

(** [None] when one side is a NaN: every ordered comparison and [==]
    are then false. *)
Definition compare (a b : pynum) : option comparison :=
  match a, b with
  | PyF x, PyF y => SFcompare x y
  | PyI x, PyI y => Some (x ?= y)%Z
  | PyI x, PyF y => Z_compare_float x y
  | PyF x, PyI y => CompOpp <$> Z_compare_float y x
  end.

(** [a == b] *)
Definition eqb (a b : pynum) : bool :=
  match compare a b with Some Eq => true | _ => false end.

(** [a < b] *)
Definition ltb (a b : pynum) : bool :=
  match compare a b with Some Lt => true | _ => false end.

End PyNum.

(** ** [os.path] and the file system *)

Module OsPath.

(** [os.path.exists(p)] on a disk given by the set of its paths.  The
    empty path names nothing: [stat] fails on it. *)
Definition exists_ (disk : gset string) (p : string) : bool :=
  negb (String.eqb p "") && bool_decide (p ∈ disk).

(** [os.path.basename(p)] (POSIX): what follows the last slash. *)
Definition basename (p : string) : string :=
  PyStr.suffix_from (PyStr.rfind "/" p + 1) p.

Fixpoint all_dots (s : string) : bool :=
  match s with
  | EmptyString => true
  | String c t => Ascii.eqb c "." && all_dots t
  end.

(** [os.path.splitext(p)] (POSIX): split at the last dot of the last
    component, unless that component has only dots before it. *)
Definition splitext (p : string) : string * string :=
  let sepIndex := PyStr.rfind "/" p in
  let dotIndex := PyStr.rfind "." p in
  if (sepIndex <? dotIndex)%Z then
    let lead :=
      String.substring (Z.to_nat (sepIndex + 1))
                       (Z.to_nat (dotIndex - (sepIndex + 1))) p in
    if all_dots lead then (p, "")
    else (PyStr.prefix_to dotIndex p, PyStr.suffix_from dotIndex p)
  else (p, "").

End OsPath.

(** ** The job state store *)

Record world := World {
  progress_store : gmap string pynum;
  file_store : gmap string string;
  disk : gset string;
}.

(** [progress_store[task_id] = v] *)
Definition set_progress (task_id : string) (v : pynum) (w : world) : world :=
  World (<[task_id := v]> (progress_store w)) (file_store w) (disk w).

(** [file_store[task_id] = p] *)
Definition set_file (task_id : string) (p : string) (w : world) : world :=
  World (progress_store w) (<[task_id := p]> (file_store w)) (disk w).

(** [progress_store.pop(task_id, None)] *)
Definition pop_progress (task_id : string) (w : world) : world :=
  World (delete task_id (progress_store w)) (file_store w) (disk w).

(** [file_store.pop(task_id, None)] *)
Definition pop_file (task_id : string) (w : world) : world :=
  World (progress_store w) (delete task_id (file_store w)) (disk w).

Definition write_files (ps : list string) (w : world) : world :=
  World (progress_store w) (file_store w) (list_to_set ps ∪ disk w).

(** The exceptions that the modelled code can meet; all of them are
    instances of [Exception]. *)
Inductive exn :=
  | KeyError (key : string)
  | FileNotFoundError (path : string)
  | LibraryError (msg : string).

Definition DOWNLOAD_DIR : string := "/tmp/downloads".

Record DownloadRequest := {
  url : string;
  type : string;
  quality : string;
}.

(** ** Helpers *)

(** The character class of the regular expression in [safe_filename]:
    backslash, slash, colon, star, question mark, double quote, the two
    angle brackets and the bar. *)
Definition unsafe_chars : list ascii :=
  ["\"%char; "/"%char; ":"%char; "*"%char; "?"%char; "034"%char;
   "<"%char; ">"%char; "|"%char].

Definition safe_filename (name : string) : string :=
  PyStr.sub_class unsafe_chars "_" name.

(** An event dictionary [d], as far as the hook reads it: its
    string-valued entries. *)
Abbreviation event := (gmap string string).

(** [progress_hook(task_id)] is the closure [hook]; calling it on [d]
    updates the store, or raises before it has changed anything. *)
Definition progress_hook (task_id : string) (d : event) (w : world)
  : world * option exn :=
  match d !! "status" with
  | None => (w, Some (KeyError "status"))
  | Some status =>
      if String.eqb status "downloading" then
        let percent_str :=
          PyStr.strip
            (PyStr.replace "%" "" (default "0%" (d !! "_percent_str"))) in
        match PyFloat.float percent_str with
        | Some f => (set_progress task_id (PyF f) w, None)
        | None =>
            (set_progress task_id
               (default (PyF PyFloat.f0) (progress_store w !! task_id)) w,
             None)
        end
      else if String.eqb status "finished" then
        (set_progress task_id (PyF PyFloat.f99) w, None)
      else (w, None)
  end.

(** ** The configuration handed to the media library *)

Record postprocessor := {
  key : string;
  preferredcodec : string;
  preferredquality : string;
}.

(** [ydl_opts].  A progress hook is a closure of [progress_hook] and is
    represented by the task id it captures; [postprocessors] is [None]
    when the dictionary has no such key. *)
Record ydl_opts := {
  outtmpl : string;
  noplaylist : bool;
  concurrent_fragment_downloads : Z;
  retries : Z;
  fragment_retries : Z;
  progress_hooks : list string;
  merge_output_format : string;
  format_sort : list string;
  postprocessor_args : list string;
  format : string;
  postprocessors : option (list postprocessor);
}.

(** Lines 57 to 91 of [start_download]: the dictionary as it stands when
    [YoutubeDL(ydl_opts)] is called. *)
Definition build_opts (task_id : string) (req : DownloadRequest) : ydl_opts :=
  {| outtmpl := DOWNLOAD_DIR ++ "/" ++ task_id ++ "_%(title)s.%(ext)s";
     noplaylist := true;
     concurrent_fragment_downloads := 1;
     retries := 5;
     fragment_retries := 5;
     progress_hooks := [task_id];
     merge_output_format := "mp4";
     format_sort := ["res"; "fps"; "codec:h264"];
     postprocessor_args :=
       ["-map_metadata"; "0"; "-movflags"; "+faststart"];
     format :=
       if String.eqb (type req) "video" then
         if String.eqb (quality req) "1080" then
           "bestvideo[height<=1080]+bestaudio/best"
         else if String.eqb (quality req) "720" then
           "bestvideo[height<=720]+bestaudio/best"
         else "bestvideo+bestaudio/best"
       else "bestaudio/best";
     postprocessors :=
       if String.eqb (type req) "video" then None
       else Some [ {| key := "FFmpegExtractAudio";
                      preferredcodec := "mp3";
                      preferredquality := quality req |} ] |}.

(** ** The media library, seen from the orchestrator

    One use of [YoutubeDL(ydl_opts)] (construction, [extract_info] and
    [prepare_filename]) shows the orchestrator a sequence of events, each
    passed to every registered hook, the files it leaves on disk, and an
    end: the prepared file name, or an exception. *)

Inductive lib_end :=
  | Returned (prepared : string)
  | Raised (e : exn).

Record lib_run := {
  events : list event;
  written : list string;
  ending : lib_end;
}.

Abbreviation YoutubeDL := (ydl_opts -> string -> lib_run).

Fixpoint call_hooks (hooks : list string) (d : event) (w : world)
  : world * option exn :=
  match hooks with
  | [] => (w, None)
  | h :: hs =>
      match progress_hook h d w with
      | (w', None) => call_hooks hs d w'
      | (w', Some e) => (w', Some e)
      end
  end.

(** The events of a run, in order; the worlds after each event are
    collected, and the first exception of a hook ends the run. *)
Fixpoint report (hooks : list string) (ds : list event) (w : world)
  : list world * option exn :=
  match ds with
  | [] => ([], None)
  | d :: ds' =>
      match call_hooks hooks d w with
      | (w', None) =>
          let '(tr, r) := report hooks ds' w' in (w' :: tr, r)
      | (w', Some e) => ([w'], Some e)
      end
  end.

(** ** The orchestrator *)

(** The [try] block of [start_download]: the worlds it goes through, and
    the exception it raises, if any. *)
Definition try_body (ydl : YoutubeDL) (task_id : string)
    (req : DownloadRequest) (w : world) : list world * option exn :=
  let opts := build_opts task_id req in
  let run := ydl opts (url req) in
  let '(tr, r) := report (progress_hooks opts) (events run) w in
  let w1 := write_files (written run) (List.last tr w) in
  match r with
  | Some e => ((tr ++ [w1])%list, Some e)
  | None =>
      match ending run with
      | Raised e => ((tr ++ [w1])%list, Some e)
      | Returned prepared =>
          let base_path := fst (OsPath.splitext prepared) in
          let final_path :=
            if String.eqb (type req) "video" then base_path ++ ".mp4"
            else base_path ++ ".mp3" in
          let w2 := set_file task_id final_path w1 in
          let w3 := set_progress task_id (PyF PyFloat.f100) w2 in
          ((tr ++ [w1; w2; w3])%list, None)
      end
  end.

(** [start_download] with the worlds it goes through, one per statement
    that changes the store; the result is the exception it re-raises. *)
Definition start_download_trace (ydl : YoutubeDL) (task_id : string)
    (req : DownloadRequest) (w : world) : list world * option exn :=
  match try_body ydl task_id req w with
  | (tr, None) => (tr, None)
  | (tr, Some e) =>
      let w1 := set_progress task_id (PyI (-1)) (List.last tr w) in
      let w2 := pop_file task_id w1 in
      ((tr ++ [w1; w2])%list, Some e)
  end.

Definition start_download (ydl : YoutubeDL) (task_id : string)
    (req : DownloadRequest) (w : world) : world * option exn :=
  let '(tr, r) := start_download_trace ydl task_id req w in
  (List.last tr w, r).

(** ** The endpoints *)

(** Work handed to [background_tasks.add_task]. *)
Inductive bgtask :=
  | BgStartDownload (task_id : string) (req : DownloadRequest)
  | BgRemove (path : string).

Inductive response (A : Type) :=
  | Ok (body : A)
  | HTTPException (status_code : Z) (detail : string).
Arguments Ok {A} body.
Arguments HTTPException {A} status_code detail.

Record FileResponse := {
  path : string;
  filename : string;
  media_type : string;
}.

(** [POST /download]; [uuid4] is the identifier that [uuid.uuid4()]
    draws. *)
Definition download (uuid4 : string) (req : DownloadRequest) (w : world)
  : world * string * list bgtask :=
  let task_id := uuid4 in
  (set_progress task_id (PyF PyFloat.f0) w, task_id,
   [BgStartDownload task_id req]).

(** [GET /progress/{task_id}]: the value of the ["progress"] field. *)
Definition progress (task_id : string) (w : world) : pynum :=
  default (PyF PyFloat.f0) (progress_store w !! task_id).

(** [GET /download-file/{task_id}] *)
Definition download_file (task_id : string) (w : world)
  : world * response FileResponse * list bgtask :=
  match file_store w !! task_id with
  | None => (w, HTTPException 404 "File not available", [])
  | Some p =>
      if String.eqb p "" || negb (OsPath.exists_ (disk w) p) then
        (w, HTTPException 404 "File not available", [])
      else
        (pop_progress task_id (pop_file task_id w),
         Ok {| path := p;
               filename := OsPath.basename p;
               media_type := "application/octet-stream" |},
         [BgRemove p])
  end.

(** [os.remove(p)] *)
Definition os_remove (p : string) (w : world) : world * option exn :=
  if OsPath.exists_ (disk w) p then
    (World (progress_store w) (file_store w) (disk w ∖ {[p]}), None)
  else (w, Some (FileNotFoundError p)).

Definition run_background (ydl : YoutubeDL) (t : bgtask) (w : world)
  : world * option exn :=
  match t with
  | BgStartDownload task_id req => start_download ydl task_id req w
  | BgRemove p => os_remove p w
  end.

(** What can happen to the store: a request to one of the endpoints, or
    the framework running a background task. *)
Inductive op :=
  | OpDownload (uuid4 : string) (req : DownloadRequest)
  | OpProgress (task_id : string)
  | OpDownloadFile (task_id : string)
  | OpBackground (t : bgtask).

Definition step (ydl : YoutubeDL) (o : op) (w : world) : world :=
  match o with
  | OpDownload uuid4 req => (download uuid4 req w).1.1
  | OpProgress _ => w
  | OpDownloadFile task_id => (download_file task_id w).1.1
  | OpBackground t => (run_background ydl t w).1
  end.

Definition steps (ydl : YoutubeDL) (os : list op) (w : world) : world :=
  fold_left (fun w o => step ydl o w) os w.

(** ** Vocabulary of the properties *)

(** The values that [task_id]'s progress takes along a list of worlds. *)
Definition progress_values (task_id : string) (tr : list world) : list pynum :=
  omap (fun w => progress_store w !! task_id) tr.



Definition terminal (v : pynum) : bool :=
  PyNum.eqb v (PyF PyFloat.f100) || PyNum.eqb v (PyI (-1)).

(** Starting after [prev], no value of [vs] is lower than the one before
    it, up to the first 100 or -1. *)
Fixpoint non_decreasing_until_end (prev : pynum) (vs : list pynum) : bool :=
  match vs with
  | [] => true
  | v :: vs' =>
      terminal prev || PyNum.eqb v (PyI (-1))
      || negb (PyNum.ltb v prev) && non_decreasing_until_end v vs'
  end.

(** What an event makes the hook store whatever was stored before: the
    parsed percentage of a ["downloading"] event, 99 for ["finished"]. *)
Definition reported (d : event) : option pynum :=
  match d !! "status" with
  | Some status =>
      if String.eqb status "downloading" then
        PyF <$> PyFloat.float
          (PyStr.strip
             (PyStr.replace "%" "" (default "0%" (d !! "_percent_str"))))
      else if String.eqb status "finished" then Some (PyF PyFloat.f99)
      else None
  | None => None
  end.



(** An operation that is not the submission or the orchestrated download
    of [task_id]. *)
Definition leaves_task (task_id : string) (o : op) : Prop :=
  match o with
  | OpDownload uuid4 _ => uuid4 ≠ task_id
  | OpBackground (BgStartDownload t _) => t ≠ task_id
  | _ => True
  end.

(** The two entries of [task_id] are the same in [w'] as in [w]. *)
Definition same_at (task_id : string) (w w' : world) : Prop :=
  progress_store w' !! task_id = progress_store w !! task_id /\
  file_store w' !! task_id = file_store w !! task_id.

(** A task that has failed: progress -1 and no result path. *)
Definition failed (task_id : string) (w : world) : Prop :=
  progress_store w !! task_id = Some (PyI (-1)) /\
  file_store w !! task_id = None.

(** Not above 100. *)
Definition at_most_100 (v : pynum) : bool :=
  negb (PyNum.ltb (PyF PyFloat.f100) v).

(** The event has a ["status"] entry. *)
Definition has_status (d : event) : bool :=
  bool_decide (is_Some (d !! "status")).

(** The event is one the hook reacts to: it has no status (the hook
    raises), or its status is ["downloading"] or ["finished"]. *)
Definition hook_relevant (d : event) : bool :=
  match d !! "status" with
  | Some status =>
      String.eqb status "downloading" || String.eqb status "finished"
  | None => true
  end.

(** The path that [start_download] records when the library has prepared
    the name [prepared]. *)
Definition final_path_of (req : DownloadRequest) (prepared : string) : string :=
  (OsPath.splitext prepared).1 ++
  (if String.eqb (type req) "video" then ".mp4" else ".mp3").

(** A path that ends in one of the two extensions the orchestrator
    appends. *)
Definition media_path (p : string) : Prop :=
  exists base, p = base ++ ".mp4" \/ p = base ++ ".mp3".

(** The task id that an operation is about, if it is about one. *)
Definition op_target (o : op) : option string :=
  match o with
  | OpDownload uuid4 _ => Some uuid4
  | OpProgress task_id => Some task_id
  | OpDownloadFile task_id => Some task_id
  | OpBackground (BgStartDownload task_id _) => Some task_id
  | OpBackground (BgRemove _) => None
  end.

(** The library run of a task, and the same run without the events that
    the hook does not react to. *)
Definition only_relevant (ydl : YoutubeDL) : YoutubeDL := fun opts u =>
  {| events := filter (fun d => hook_relevant d = true) (events (ydl opts u));
     written := written (ydl opts u);
     ending := ending (ydl opts u) |}.


(** Every stored result path ends in one of the two extensions. *)
Definition stored_paths_ok (w : world) : Prop :=
  forall task_id p, file_store w !! task_id = Some p -> media_path p.

(** ** Sample runs *)

Module Sample.

Definition empty : world := World ∅ ∅ ∅.

Definition downloading (percent_str : string) : event :=
  {[ "status" := "downloading"; "_percent_str" := percent_str ]}.

Definition finished : event := {[ "status" := "finished" ]}.

Definition video : DownloadRequest :=
  {| url := "https://example.com/v"; type := "video"; quality := "best" |}.

(** A video and an audio stream, downloaded one after the other. *)
Definition two_streams : YoutubeDL := fun _ _ =>
  {| events := [downloading " 50.0%"; finished; downloading " 10.0%"; finished];
     written := ["/tmp/downloads/t_clip.mp4"];
     ending := Returned "/tmp/downloads/t_clip.webm" |}.

(** One stream, whose last ["downloading"] event reports 100%. *)
Definition one_stream : YoutubeDL := fun _ _ =>
  {| events := [downloading " 42.5%"; downloading "100%"; finished];
     written := ["/tmp/downloads/t_clip.mp4"];
     ending := Returned "/tmp/downloads/t_clip.mp4" |}.

Definition failing : YoutubeDL := fun _ _ =>
  {| events := [downloading " 42.5%"];
     written := [];
     ending := Raised (LibraryError "Unsupported URL") |}.


End Sample.

(** ** Basic facts about the store *)

Lemma last_snoc2 {A} (l : list A) (a b d : A) :
  List.last (l ++ [a; b]) d = b.
Proof.
  replace (l ++ [a; b])%list with ((l ++ [a]) ++ [b])%list
    by (rewrite <- app_assoc; reflexivity).
  apply List.last_last.
Qed.

Lemma last_snoc3 {A} (l : list A) (a b c d : A) :
  List.last (l ++ [a; b; c]) d = c.
Proof.
  replace (l ++ [a; b; c])%list with ((l ++ [a; b]) ++ [c])%list
    by (rewrite <- app_assoc; reflexivity).
  apply List.last_last.
Qed.

Lemma set_progress_same (task_id : string) (v : pynum) (w : world) :
  progress_store w !! task_id = Some v -> set_progress task_id v w = w.
Proof.
  intros H. destruct w as [ps fs dk]; unfold set_progress; simpl in *.
  f_equal. by apply insert_id.
Qed.

(** The hook has one outcome per shape of event. *)
Lemma progress_hook_cases (task_id : string) (d : event) (w : world) :
  progress_hook task_id d w =
    match d !! "status" with
    | None => (w, Some (KeyError "status"))
    | Some status =>
        match reported d with
        | Some v => (set_progress task_id v w, None)
        | None =>
            if String.eqb status "downloading" then
              (set_progress task_id
                 (default (PyF PyFloat.f0) (progress_store w !! task_id)) w,
               None)
            else (w, None)
        end
    end.
Proof.
  unfold progress_hook, reported.
  destruct (d !! "status") as [status|]; [|reflexivity].
  destruct (String.eqb status "downloading").
  - destruct (PyFloat.float _); reflexivity.
  - destruct (String.eqb status "finished"); reflexivity.
Qed.

(** ** The configuration: format selector and audio branch *)



(** C7: a request whose type is not the string video takes the audio
    branch: best-audio selector, one mp3 extraction postprocessor that
    carries the request's quality string unchanged, and, when the library
    call succeeds, a stored final path that ends in .mp3. *)
Theorem non_video_is_audio (ydl : YoutubeDL) (task_id : string)
    (req : DownloadRequest) (w : world) :
  type req <> "video" ->
  format (build_opts task_id req) = "bestaudio/best" /\
  postprocessors (build_opts task_id req) =
    Some [ {| key := "FFmpegExtractAudio";
              preferredcodec := "mp3";
              preferredquality := quality req |} ] /\
  ((start_download ydl task_id req w).2 = None ->
   exists base,
     file_store (start_download ydl task_id req w).1 !! task_id
     = Some (base ++ ".mp3")).
Proof.
  intros Hty.
  assert (Hb : String.eqb (type req) "video" = false)
    by (by apply String.eqb_neq).
  unfold build_opts; simpl. rewrite Hb. split; [done|]. split; [done|].
  unfold start_download, start_download_trace, try_body.
  rewrite Hb.
  destruct (report _ _ _) as [tr [e|]]; simpl; [done|].
  destruct (ending _) as [prepared|e]; simpl; [|done].
  intros _. eexists. rewrite last_snoc3. simpl.
  apply lookup_insert_eq.
Qed.

Lemma non_video_is_audio_witness :
  let req := {| url := "u"; type := "podcast"; quality := "192" |} in
  exists base,
    file_store (start_download Sample.one_stream "t" req Sample.empty).1 !! "t"
    = Some (base ++ ".mp3").
Proof.
  intros req.
  apply (non_video_is_audio Sample.one_stream "t" req Sample.empty).
  - discriminate.
  - vm_compute. reflexivity.
Defined.

(** ** The progress hook *)

(** C9: a downloading event without the percent key makes the hook store
    0.0, whatever was stored before: the default 0% is parsed like any
    other percentage. *)
Theorem missing_percent_stores_zero (task_id : string) (d : event) (w : world) :
  d !! "status" = Some "downloading" ->
  d !! "_percent_str" = None ->
  progress_hook task_id d w = (set_progress task_id (PyF PyFloat.f0) w, None) /\
  progress_store (progress_hook task_id d w).1 !! task_id
  = Some (PyF (S754_zero false)).
Proof.
  intros Hst Hpc. unfold progress_hook. rewrite Hst, Hpc. simpl.
  split; [reflexivity|]. apply lookup_insert_eq.
Qed.

Lemma missing_percent_stores_zero_witness :
  let w := set_progress "t" (PyF PyFloat.f99) Sample.empty in
  let d : event := {[ "status" := "downloading" ]} in
  progress_store w !! "t" = Some (PyF PyFloat.f99) /\
  progress_store (progress_hook "t" d w).1 !! "t" = Some (PyF (S754_zero false)).
Proof.
  intros w d. split; [reflexivity|].
  apply (missing_percent_stores_zero "t" d w); reflexivity.
Defined.




(** ** The endpoints *)

(** C10: after a successful fetch of a task id, polling that id answers
    0.0, the answer given for an id that the store has never held. *)
Theorem poll_after_fetch (task_id : string) (w w' : world)
    (body : FileResponse) (bg : list bgtask) :
  download_file task_id w = (w', Ok body, bg) ->
  progress_store w' !! task_id = None /\
  progress task_id w' = PyF (S754_zero false) /\
  (forall unknown w0,
     progress_store w0 !! unknown = None ->
     progress task_id w' = progress unknown w0).
Proof.
  unfold download_file. intros H.
  destruct (file_store w !! task_id) as [p|]; [|discriminate H].
  destruct (String.eqb p "" || negb (OsPath.exists_ (disk w) p));
    [discriminate H|].
  injection H as <- _ _.
  assert (Hnone : progress_store (pop_progress task_id (pop_file task_id w))
                  !! task_id = None) by apply lookup_delete_eq.
  split; [exact Hnone|]. unfold progress. rewrite Hnone.
  split; [reflexivity|]. intros unknown w0 H0. by rewrite H0.
Qed.

(** C4: the fetch endpoint answers 404 exactly when no path is stored for
    the id or the stored path does not exist on disk; otherwise it
    answers with the stored file, schedules its removal, and drops the
    id from both dictionaries, so that the same fetch repeated at once
    answers 404. *)
Theorem fetch_at_most_once (task_id : string) (w : world) :
  let '(w', resp, bg) := download_file task_id w in
  let not_found := HTTPException 404 "File not available" in
  (resp = not_found <->
   file_store w !! task_id = None \/
   exists p, file_store w !! task_id = Some p /\
             OsPath.exists_ (disk w) p = false) /\
  (resp = not_found -> w' = w /\ bg = []) /\
  (forall p,
     file_store w !! task_id = Some p ->
     OsPath.exists_ (disk w) p = true ->
     resp = Ok {| path := p; filename := OsPath.basename p;
                  media_type := "application/octet-stream" |} /\
     bg = [BgRemove p] /\
     file_store w' !! task_id = None /\
     progress_store w' !! task_id = None /\
     (download_file task_id w').1.2 = not_found).
Proof.
  unfold download_file.
  destruct (file_store w !! task_id) as [p|] eqn:Hp.
  - destruct (String.eqb_spec p "") as [->|Hne]; simpl.
    + split; [|split]; [split; [|done]| done |].
      * intros _. right. by exists "".
      * intros p [= <-] Hex. discriminate Hex.
    + destruct (OsPath.exists_ (disk w) p) eqn:Hex; simpl.
      * split; [|split].
        -- split; [done|]. intros [H|(q & [= <-] & H)]; congruence.
        -- done.
        -- intros q [= <-] _.
           assert (Hf : file_store (pop_progress task_id (pop_file task_id w))
                        !! task_id = None) by apply lookup_delete_eq.
           repeat split; [exact Hf|apply lookup_delete_eq|].
           simpl in Hf. by rewrite Hf.
      * split; [|split]; [split; [|done]| done |].
        -- intros _. right. by exists p.
        -- intros q [= <-] H. congruence.
  - split; [|split]; [split; [|done]| done |].
    + intros _. by left.
    + intros p H. discriminate H.
Qed.

Lemma fetch_at_most_once_witness :
  let w := (start_download Sample.one_stream "t" Sample.video
              (download "t" Sample.video Sample.empty).1.1).1 in
  let w' := (download_file "t" w).1.1 in
  (download_file "t" w).1.2
  = Ok {| path := "/tmp/downloads/t_clip.mp4"; filename := "t_clip.mp4";
          media_type := "application/octet-stream" |} /\
  (download_file "t" w').1.2 = HTTPException 404 "File not available".
Proof.
  intros w w'.
  pose proof (fetch_at_most_once "t" w) as H.
  destruct (download_file "t" w) as [[w1 resp] bg] eqn:E.
  destruct H as (_ & _ & H).
  destruct (H "/tmp/downloads/t_clip.mp4") as (Hr & _ & _ & _ & H404).
  - vm_compute. reflexivity.
  - vm_compute. reflexivity.
  - subst w'. simpl. split; [exact Hr | exact H404].
Defined.

Lemma poll_after_fetch_witness :
  let w := (start_download Sample.one_stream "t" Sample.video
              (download "t" Sample.video Sample.empty).1.1).1 in
  progress "t" w = PyF PyFloat.f100 /\
  progress "t" (download_file "t" w).1.1 = PyF (S754_zero false).
Proof.
  intros w. split; [vm_compute; reflexivity|].
  destruct (download_file "t" w) as [[w' resp] bg] eqn:E.
  assert (Hr : resp = Ok {| path := "/tmp/downloads/t_clip.mp4";
                            filename := "t_clip.mp4";
                            media_type := "application/octet-stream" |} /\
               bg = [BgRemove "/tmp/downloads/t_clip.mp4"]).
  { assert (E' := E). vm_compute in E'. injection E' as _ <- <-. done. }
  destruct Hr as [-> ->].
  exact (proj1 (proj2 (poll_after_fetch "t" w w' _ _ E))).
Defined.

(** ** The lifecycle invariant *)

Lemma report_keeps_files (hooks : list string) (ds : list event) (w : world) :
  Forall (fun w' => file_store w' = file_store w /\ disk w' = disk w)
         (report hooks ds w).1.
Proof.
  assert (Hhook : forall h d w0,
             file_store (progress_hook h d w0).1 = file_store w0 /\
             disk (progress_hook h d w0).1 = disk w0).
  { intros h d w0. rewrite progress_hook_cases.
    destruct (d !! "status") as [st|]; [|done].
    destruct (reported d); [done|]. by destruct (String.eqb st "downloading"). }
  assert (Hcall : forall hs d w0,
             file_store (call_hooks hs d w0).1 = file_store w0 /\
             disk (call_hooks hs d w0).1 = disk w0).
  { induction hs as [|h hs IH]; intros d w0; [done|]. simpl.
    destruct (Hhook h d w0) as [Hf Hd].
    destruct (progress_hook h d w0) as [w1 [e|]]; [done|].
    simpl in Hf, Hd. destruct (IH d w1) as [Hf' Hd']. split; congruence. }
  revert w. induction ds as [|d ds IH]; intros w; simpl; [constructor|].
  destruct (Hcall hooks d w) as [Hf Hd].
  destruct (call_hooks hooks d w) as [w1 [e|]]; simpl in *.
  - by repeat constructor.
  - specialize (IH w1). destruct (report hooks ds w1) as [tr r]; simpl in *.
    constructor; [done|].
    eapply Forall_impl; [exact IH|]. simpl. intros w2 [? ?]. split; congruence.
Qed.




Example one_stream_points :
  let w := (download "t" Sample.video Sample.empty).1.1 in
  let tr := (start_download_trace Sample.one_stream "t" Sample.video w).1 in
  progress_values "t" tr
  = [PyF (S754_finite false 5981343255101440 (-47));
     PyF PyFloat.f100; PyF PyFloat.f99; PyF PyFloat.f99; PyF PyFloat.f99;
     PyF PyFloat.f100] /\
  map (fun w' => bool_decide (is_Some (file_store w' !! "t"))) tr
  = [false; false; false; false; true; true].
Proof. vm_compute. split; reflexivity. Qed.

(** ** Other tasks do not interfere *)

Lemma same_at_refl task_id w : same_at task_id w w.
Proof. by split. Qed.

Lemma same_at_trans task_id w1 w2 w3 :
  same_at task_id w1 w2 -> same_at task_id w2 w3 -> same_at task_id w1 w3.
Proof. intros [? ?] [? ?]. split; congruence. Qed.

Lemma last_Forall {A} (P : A -> Prop) (l : list A) (d : A) :
  Forall P l -> P d -> P (List.last l d).
Proof.
  intros Hl. revert d. induction Hl as [|x l Hx Hl IH]; intros d Hd; [done|].
  destruct l as [|y l']; [done|].
  change (P (List.last (y :: l') d)). by apply IH.
Qed.

Lemma progress_hook_other (task_id h : string) (d : event) (w : world) :
  h <> task_id -> same_at task_id w (progress_hook h d w).1.
Proof.
  intros Hne. rewrite progress_hook_cases.
  destruct (d !! "status") as [st|]; [|apply same_at_refl].
  destruct (reported d).
  - split; simpl; [by apply lookup_insert_ne|done].
  - destruct (String.eqb st "downloading"); [|apply same_at_refl].
    split; simpl; [by apply lookup_insert_ne|done].
Qed.

Lemma call_hooks_other (task_id : string) (hs : list string) (d : event)
    (w : world) :
  Forall (fun h => h <> task_id) hs -> same_at task_id w (call_hooks hs d w).1.
Proof.
  intros Hhs. revert w.
  induction Hhs as [|h hs Hh Hhs IH]; intros w; [apply same_at_refl|].
  simpl. pose proof (progress_hook_other task_id h d w Hh) as H1.
  destruct (progress_hook h d w) as [w1 [e|]]; [done|].
  eapply same_at_trans; [exact H1|apply IH].
Qed.

Lemma report_other (task_id : string) (hs : list string) (ds : list event)
    (w : world) :
  Forall (fun h => h <> task_id) hs ->
  Forall (same_at task_id w) (report hs ds w).1.
Proof.
  intros Hhs. revert w. induction ds as [|d ds IH]; intros w; [constructor|].
  simpl. pose proof (call_hooks_other task_id hs d w Hhs) as H1.
  destruct (call_hooks hs d w) as [w1 [e|]]; simpl in *.
  - constructor; [exact H1|constructor].
  - specialize (IH w1). destruct (report hs ds w1) as [tr r]; simpl in *.
    constructor; [exact H1|].
    eapply Forall_impl; [exact IH|]. intros w2. by apply same_at_trans.
Qed.

Lemma start_download_other (ydl : YoutubeDL) (task_id t : string)
    (req : DownloadRequest) (w : world) :
  t <> task_id -> same_at task_id w (start_download ydl t req w).1.
Proof.
  intros Hne.
  assert (Hrep := report_other task_id [t]
                    (events (ydl (build_opts t req) (url req))) w
                    ltac:(by repeat constructor)).
  unfold start_download, start_download_trace, try_body. simpl.
  destruct (report _ _ _) as [tr r]. simpl in Hrep.
  assert (Hlast : same_at task_id w (List.last tr w))
    by (apply last_Forall; [done|apply same_at_refl]).
  destruct Hlast as [Hp Hf].
  destruct r as [e|]; [|destruct (ending _) as [prepared|e]]; simpl;
    rewrite ?last_snoc2, ?last_snoc3; split; simpl;
    rewrite ?lookup_delete_ne, ?lookup_insert_ne by done;
    rewrite ?List.last_last; done.
Qed.

Lemma step_keeps_failed (ydl : YoutubeDL) (task_id : string) (o : op)
    (w : world) :
  leaves_task task_id o -> failed task_id w -> failed task_id (step ydl o w).
Proof.
  intros Ho [Hp Hf]. destruct o as [u req|t|t|[t req|p]]; simpl in *.
  - split; simpl; [by rewrite lookup_insert_ne|done].
  - done.
  - unfold download_file.
    destruct (file_store w !! t) as [p|] eqn:E; [|done].
    destruct (String.eqb p "" || negb (OsPath.exists_ (disk w) p)); [done|].
    assert (t <> task_id) by congruence.
    split; simpl; by rewrite lookup_delete_ne.
  - destruct (start_download_other ydl task_id t req w Ho) as [Hp' Hf'].
    split; congruence.
  - unfold os_remove. by destruct (OsPath.exists_ (disk w) p).
Qed.

Lemma steps_keep_failed (ydl : YoutubeDL) (task_id : string) (os : list op)
    (w : world) :
  Forall (leaves_task task_id) os ->
  failed task_id w -> failed task_id (steps ydl os w).
Proof.
  intros Hos. revert w. unfold steps.
  induction Hos as [|o os Ho Hos IH]; intros w Hw; [done|].
  simpl. apply IH. by apply step_keeps_failed.
Qed.

(** C3: when the try block of the orchestrated download raises, the
    exception is re-raised, the progress is -1 and no result path is
    stored; every later request and every later background task of other
    task ids leaves that progress at -1, and a fetch of the failed id
    answers 404. *)
Theorem failure_is_final (ydl : YoutubeDL) (task_id : string)
    (req : DownloadRequest) (w : world) (tr : list world) (e : exn) :
  try_body ydl task_id req w = (tr, Some e) ->
  let w' := (start_download ydl task_id req w).1 in
  (start_download ydl task_id req w).2 = Some e /\
  progress_store w' !! task_id = Some (PyI (-1)) /\
  file_store w' !! task_id = None /\
  forall (ydl' : YoutubeDL) (os : list op),
    Forall (leaves_task task_id) os ->
    let w'' := steps ydl' os w' in
    progress_store w'' !! task_id = Some (PyI (-1)) /\
    progress task_id w'' = PyI (-1) /\
    download_file task_id w''
    = (w'', HTTPException 404 "File not available", []).
Proof.
  intros Htry. unfold start_download, start_download_trace. rewrite Htry.
  simpl. rewrite last_snoc2. simpl.
  assert (Hfailed : failed task_id
            (pop_file task_id
               (set_progress task_id (PyI (-1)) (List.last tr w)))).
  { split; simpl; [apply lookup_insert_eq|apply lookup_delete_eq]. }
  split; [done|]. split; [apply Hfailed|]. split; [apply Hfailed|].
  intros ydl' os Hos.
  destruct (steps_keep_failed ydl' task_id os _ Hos Hfailed) as [Hp Hf].
  split; [exact Hp|]. split.
  - unfold progress. by rewrite Hp.
  - unfold download_file. by rewrite Hf.
Qed.

Lemma failure_is_final_witness :
  let w := (download "t" Sample.video Sample.empty).1.1 in
  let w' := (start_download Sample.failing "t" Sample.video w).1 in
  let later :=
    [OpProgress "t"; OpDownloadFile "t"; OpDownload "u" Sample.video;
     OpBackground (BgStartDownload "u" Sample.video); OpDownloadFile "u";
     OpProgress "t"] in
  (start_download Sample.failing "t" Sample.video w).2
  = Some (LibraryError "Unsupported URL") /\
  progress "t" (steps Sample.one_stream later w') = PyI (-1).
Proof.
  intros w w' later.
  destruct (failure_is_final Sample.failing "t" Sample.video w
              (try_body Sample.failing "t" Sample.video w).1
              (LibraryError "Unsupported URL"))
    as (Hr & _ & _ & Hlater).
  - vm_compute. reflexivity.
  - split; [exact Hr|].
    destruct (Hlater Sample.one_stream later) as (_ & Hp & _); [|exact Hp].
    repeat constructor; discriminate.
Defined.

(** ** The order of the stored progress values *)

Lemma ltb_irrefl (v : pynum) : PyNum.ltb v v = false.
Proof.
  unfold PyNum.ltb. destruct v as [f|z]; simpl.
  - destruct f as [s|s| |s m e]; simpl.
    + done.
    + by destruct s.
    + done.
    + destruct s; rewrite Z.compare_refl, Pos.compare_cont_refl; done.
  - by rewrite Z.compare_refl.
Qed.

Lemma last_cons {A} (l : list A) (a d : A) :
  List.last (a :: l) d = List.last l a.
Proof.
  revert a d. induction l as [|b l IH]; intros a d; [done|].
  change (List.last (a :: b :: l) d) with (List.last (b :: l) d).
  by rewrite !IH.
Qed.

Lemma non_decreasing_app (prev : pynum) (l1 l2 : list pynum) :
  non_decreasing_until_end prev l1 = true ->
  non_decreasing_until_end (List.last l1 prev) l2 = true ->
  non_decreasing_until_end prev (l1 ++ l2) = true.
Proof.
  revert prev. induction l1 as [|v l1 IH]; intros prev H1 H2; [done|].
  rewrite last_cons in H2. simpl in *.
  destruct (terminal prev); [done|].
  destruct (PyNum.eqb v (PyI (-1))); [done|]. simpl in *.
  apply andb_true_iff in H1 as [Hv H1]. rewrite Hv. simpl.
  by apply IH.
Qed.

Lemma progress_values_cons (task_id : string) (w : world) (tr : list world)
    (v : pynum) :
  progress_store w !! task_id = Some v ->
  progress_values task_id (w :: tr) = v :: progress_values task_id tr.
Proof. intros H. unfold progress_values. simpl. by rewrite H. Qed.

Lemma progress_values_app (task_id : string) (l1 l2 : list world) :
  progress_values task_id (l1 ++ l2)
  = (progress_values task_id l1 ++ progress_values task_id l2)%list.
Proof. apply omap_app. Qed.

Section HookPhase.

Variable task_id : string.

Lemma report_cons (d : event) (ds : list event) (w : world) :
  report [task_id] (d :: ds) w =
    match progress_hook task_id d w with
    | (w', None) =>
        let '(tr, r) := report [task_id] ds w' in (w' :: tr, r)
    | (w', Some e) => ([w'], Some e)
    end.
Proof. simpl. by destruct (progress_hook task_id d w) as [w' [e|]]. Qed.

(** After the events, the task still has a stored value, the last of
    those it took, and it is not above 100 if no report is. *)
Lemma report_last (ds : list event) (w : world) (v0 : pynum) :
  progress_store w !! task_id = Some v0 ->
  at_most_100 v0 = true ->
  forallb at_most_100 (omap reported ds) = true ->
  let tr := (report [task_id] ds w).1 in
  exists vl,
    progress_store (List.last tr w) !! task_id = Some vl /\
    List.last (progress_values task_id tr) v0 = vl /\
    at_most_100 vl = true.
Proof.
  revert w v0. induction ds as [|d ds IH]; intros w v0 Hv0 Hle Hall.
  { by exists v0. }
  rewrite report_cons, progress_hook_cases.
  simpl in Hall.
  destruct (d !! "status") as [st|]; simpl.
  2:{ exists v0. unfold progress_values; simpl. by rewrite Hv0. }
  assert (Hstep : forall v w1,
             progress_store w1 !! task_id = Some v ->
             at_most_100 v = true ->
             forallb at_most_100 (omap reported ds) = true ->
             exists vl,
               progress_store
                 (List.last (w1 :: (report [task_id] ds w1).1) w)
                 !! task_id = Some vl /\
               List.last
                 (progress_values task_id
                    (w1 :: (report [task_id] ds w1).1)) v0 = vl /\
               at_most_100 vl = true).
  { intros v w1 Hv Hlev Hall'.
    destruct (IH w1 v Hv Hlev Hall') as (vl & H1 & H2 & H3).
    exists vl. split; [|split; [|done]].
    - by rewrite last_cons.
    - unfold progress_values in *. simpl. rewrite Hv.
      by rewrite last_cons. }
  destruct (reported d) as [v|] eqn:Hrep.
  - apply andb_true_iff in Hall as [Hv Hall].
    specialize (Hstep v (set_progress task_id v w)
                  (lookup_insert_eq _ _ _) Hv Hall).
    by destruct (report [task_id] ds (set_progress task_id v w)).
  - rewrite Hv0. simpl. rewrite set_progress_same by done.
    specialize (Hstep v0 w Hv0 Hle Hall).
    destruct (String.eqb st "downloading");
      by destruct (report [task_id] ds w).
Qed.

(** The stored values are non-decreasing as far as the reports are. *)
Lemma report_non_decreasing (ds : list event) (w : world) (v0 : pynum) :
  progress_store w !! task_id = Some v0 ->
  non_decreasing_until_end v0 (omap reported ds) = true ->
  non_decreasing_until_end v0
    (progress_values task_id (report [task_id] ds w).1) = true.
Proof.
  revert w v0. induction ds as [|d ds IH]; intros w v0 Hv0 Hnd.
  { done. }
  rewrite report_cons, progress_hook_cases.
  simpl in Hnd.
  destruct (d !! "status") as [st|]; simpl.
  2:{ unfold progress_values; simpl. rewrite Hv0. simpl.
      by rewrite ltb_irrefl, !orb_true_r. }
  destruct (reported d) as [v|] eqn:Hrep.
  - simpl in Hnd.
    pose proof (IH (set_progress task_id v w) v (lookup_insert_eq _ _ _))
      as IHv.
    destruct (report [task_id] ds (set_progress task_id v w)) as [tr r].
    unfold progress_values in *. simpl in *. rewrite lookup_insert_eq.
    simpl.
    destruct (terminal v0); [done|].
    destruct (PyNum.eqb v (PyI (-1))); [done|]. simpl in *.
    apply andb_true_iff in Hnd as [Hv Hnd]. rewrite Hv. simpl.
    by apply IHv.
  - rewrite Hv0. simpl. rewrite set_progress_same by done.
    pose proof (IH w v0 Hv0 Hnd) as IHv.
    assert (Hgoal :
              non_decreasing_until_end v0
                (progress_values task_id (w :: (report [task_id] ds w).1))
              = true).
    { rewrite (progress_values_cons _ _ _ _ Hv0).
      cbn [non_decreasing_until_end].
      by rewrite ltb_irrefl, IHv, !orb_true_r. }
    destruct (String.eqb st "downloading");
      by destruct (report [task_id] ds w).
Qed.

End HookPhase.

(** C2, as the code has it: the hook stores each reported value as it
    comes, and stores the previous value again when a percent string does
    not parse.  So the values stored over a run are non-decreasing until
    100 or -1 whenever the values that the library reports (the parsed
    percentages, and 99 for finished) are non-decreasing from the value
    stored at the start and none of them is above 100. *)
Theorem progress_follows_reports (ydl : YoutubeDL) (task_id : string)
    (req : DownloadRequest) (w : world) (v0 : pynum) :
  let reports :=
    omap reported (events (ydl (build_opts task_id req) (url req))) in
  progress_store w !! task_id = Some v0 ->
  at_most_100 v0 = true ->
  forallb at_most_100 reports = true ->
  non_decreasing_until_end v0 reports = true ->
  non_decreasing_until_end v0
    (progress_values task_id (start_download_trace ydl task_id req w).1)
  = true.
Proof.
  intros reports Hv0 Hle Hall Hnd.
  destruct (report_last task_id _ w v0 Hv0 Hle Hall)
    as (vl & Hlast & Hvals & Hvl).
  pose proof (report_non_decreasing task_id _ w v0 Hv0 Hnd) as Hmono.
  unfold start_download_trace, try_body.
  cbn [progress_hooks build_opts].
  destruct (report [task_id] _ w) as [tr r]. cbn [fst] in *.
  set (w1 := write_files _ (List.last tr w)).
  assert (Hw1 : progress_store w1 !! task_id = Some vl) by exact Hlast.
  assert (Hstay : non_decreasing_until_end vl [vl] = true).
  { cbn [non_decreasing_until_end]. by rewrite ltb_irrefl, !orb_true_r. }
  assert (Hfail :
    non_decreasing_until_end v0
      (progress_values task_id
         ((tr ++ [w1]) ++
          [set_progress task_id (PyI (-1)) (List.last (tr ++ [w1]) w);
           pop_file task_id
             (set_progress task_id (PyI (-1))
                (List.last (tr ++ [w1]) w))])) = true).
  { rewrite List.last_last, <- app_assoc. cbn [app].
    rewrite progress_values_app.
    apply non_decreasing_app; [done|]. rewrite Hvals.
    rewrite (progress_values_cons _ _ _ _ Hw1).
    rewrite (progress_values_cons _ _ _ (PyI (-1)))
      by apply lookup_insert_eq.
    cbn [non_decreasing_until_end].
    replace (PyNum.eqb (PyI (-1)) (PyI (-1))) with true by reflexivity.
    by rewrite ltb_irrefl, !orb_true_r. }
  destruct r as [e|]; [exact Hfail|].
  destruct (ending _) as [prepared|e]; [|exact Hfail].
  cbn [fst]. rewrite progress_values_app.
  apply non_decreasing_app; [done|]. rewrite Hvals.
  rewrite (progress_values_cons _ _ _ _ Hw1).
  rewrite (progress_values_cons _ _ _ vl) by exact Hw1.
  rewrite (progress_values_cons _ _ _ (PyF PyFloat.f100))
    by apply lookup_insert_eq.
  cbn [non_decreasing_until_end progress_values omap list_omap].
  unfold at_most_100 in Hvl. apply negb_true_iff in Hvl.
  by rewrite ltb_irrefl, Hvl, !orb_true_r.
Qed.

Lemma progress_follows_reports_witness :
  let ydl : YoutubeDL := fun _ _ =>
    {| events := [Sample.downloading " 42.5%"; Sample.downloading "n/a";
                  {[ "status" := "error" ]}; Sample.finished];
       written := [];
       ending := Returned "/tmp/downloads/t_clip.mp4" |} in
  let w := (download "t" Sample.video Sample.empty).1.1 in
  non_decreasing_until_end (PyF PyFloat.f0)
    (progress_values "t" (start_download_trace ydl "t" Sample.video w).1)
  = true.
Proof.
  intros ydl w.
  apply (progress_follows_reports ydl "t" Sample.video w (PyF PyFloat.f0)).
  - reflexivity.
  - reflexivity.
  - vm_compute. reflexivity.
  - vm_compute. reflexivity.
Defined.

(** C2 as stated fails: with a video and an audio stream downloaded one
    after the other, the second stream's first report lowers the stored
    progress from 99 to 10. *)
Lemma progress_regresses :
  ~ (forall (ydl : YoutubeDL) task_id req w,
       non_decreasing_until_end (PyF PyFloat.f0)
         (progress_values task_id
            (start_download_trace ydl task_id req
               (download task_id req w).1.1).1) = true).
Proof.
  intros H. specialize (H Sample.two_streams "t" Sample.video Sample.empty).
  vm_compute in H. discriminate H.
Qed.

Example two_streams_points :
  let w := (download "t" Sample.video Sample.empty).1.1 in
  progress_values "t"
    (start_download_trace Sample.two_streams "t" Sample.video w).1
  = [PyF (S754_finite false 7036874417766400 (-47)); PyF PyFloat.f99;
     PyF (S754_finite false 5629499534213120 (-49)); PyF PyFloat.f99;
     PyF PyFloat.f99; PyF PyFloat.f99; PyF PyFloat.f100] /\
  PyNum.ltb (PyF (S754_finite false 5629499534213120 (-49))) (PyF PyFloat.f99)
  = true.
Proof. vm_compute. split; reflexivity. Qed.

(** ** File names *)




(** ** Checks of the modelled library functions *)

Example float_values :
  PyFloat.float "0.1" = Some (S754_finite false 7205759403792794 (-56)) /\
  PyFloat.float " 45.3" = Some (S754_finite false 6375408222496358 (-47)) /\
  PyFloat.float "100" = Some PyFloat.f100 /\
  PyFloat.float "100.000000000000001" = Some PyFloat.f100 /\
  PyFloat.float "100.00000000000001"
  = Some (S754_finite false 7036874417766401 (-46)) /\
  PyFloat.float "1_000.5e-1" = Some (S754_finite false 7040392854975283 (-46)) /\
  PyFloat.float "-.5" = Some (S754_finite true 4503599627370496 (-53)) /\
  PyFloat.float "9007199254740993" = Some (S754_finite false 4503599627370496 1) /\
  PyFloat.float "4.9e-324" = Some (S754_finite false 1 (-1074)) /\
  PyFloat.float "2.4e-324" = Some (S754_zero false) /\
  PyFloat.float "1.7976931348623157e308"
  = Some (S754_finite false 9007199254740991 971) /\
  PyFloat.float "1.7976931348623159e308" = Some (S754_infinity false) /\
  PyFloat.float "-0" = Some (S754_zero true) /\
  PyFloat.float "InFiNiTy" = Some (S754_infinity false) /\
  PyFloat.float "-nan" = Some S754_nan.
Proof. vm_compute. repeat split. Qed.

Example float_errors :
  map PyFloat.float
    [""; "."; "1_"; "1__0"; "1_e5"; "1._5"; "+-1"; "- 1"; "1 e5"; "1e";
     ".e5"; "1.5.5"; "0x10"; "infinit"; "in_f"; "n/a"; "45.3%"]
  = repeat None 17.
Proof. vm_compute. reflexivity. Qed.

Example path_values :
  OsPath.splitext "/tmp/downloads/t_clip.webm"
  = ("/tmp/downloads/t_clip", ".webm") /\
  OsPath.splitext "a.tar.gz" = ("a.tar", ".gz") /\
  OsPath.splitext "/tmp/x.y/.bashrc" = ("/tmp/x.y/.bashrc", "") /\
  OsPath.splitext "/tmp/x.y/..a.b" = ("/tmp/x.y/..a", ".b") /\
  OsPath.splitext "/tmp/x.y/name" = ("/tmp/x.y/name", "") /\
  OsPath.basename "/tmp/downloads/t.mp4" = "t.mp4" /\
  OsPath.basename "t.mp4" = "t.mp4" /\
  PyStr.strip (PyStr.replace "%" "" " 45.3% ") = "45.3" /\
  safe_filename "a\b/c:d*e?f<g>h|i j" = "a_b_c_d_e_f_g_h_i j".
Proof. vm_compute. repeat split. Qed.


(** ** Further properties of the helpers *)

Lemma underscore_is_safe : existsb (Ascii.eqb "_") unsafe_chars = false.
Proof. reflexivity. Qed.

Lemma sub_class_cons (c : ascii) (name : string) :
  safe_filename (String c name)
  = String (if existsb (Ascii.eqb c) unsafe_chars then "_"%char else c)
           (safe_filename name).
Proof.
  unfold safe_filename. cbn [PyStr.sub_class].
  by destruct (existsb (Ascii.eqb c) unsafe_chars).
Qed.

(** X1: the result of [safe_filename] has the length of its argument
    and contains none of the nine replaced characters. *)
Theorem safe_filename_clean (name : string) :
  String.length (safe_filename name) = String.length name /\
  forallb (fun c => negb (existsb (Ascii.eqb c) unsafe_chars))
          (list_ascii_of_string (safe_filename name)) = true.
Proof.
  induction name as [|c name [IHlen IHall]]; [done|].
  rewrite sub_class_cons. cbn [String.length list_ascii_of_string forallb].
  rewrite IHlen, IHall. split; [done|].
  destruct (existsb (Ascii.eqb c) unsafe_chars) eqn:E.
  - by rewrite underscore_is_safe.
  - by rewrite E.
Qed.

(** X2: [safe_filename] leaves a name unchanged exactly when the name has
    none of the nine characters; applying it twice is applying it once. *)
Theorem safe_filename_fixpoint (name : string) :
  (safe_filename name = name <->
   forallb (fun c => negb (existsb (Ascii.eqb c) unsafe_chars))
           (list_ascii_of_string name) = true) /\
  safe_filename (safe_filename name) = safe_filename name.
Proof.
  induction name as [|c name [IHiff IHidem]]; [done|].
  rewrite !sub_class_cons. cbn [list_ascii_of_string forallb].
  destruct (existsb (Ascii.eqb c) unsafe_chars) eqn:E; cbn [negb andb].
  - split.
    + split; [|done]. intros [= Hc _]. subst c.
      by rewrite underscore_is_safe in E.
    + by rewrite underscore_is_safe, IHidem.
  - split.
    + rewrite <- IHiff. split; [by intros [= ->]|by intros ->].
    + by rewrite E, IHidem.
Qed.

(** ** Further properties of the orchestrator *)

Lemma report_one (task_id : string) (d : event) (ds : list event) (w : world) :
  report [task_id] (d :: ds) w =
    match progress_hook task_id d w with
    | (w', None) =>
        let '(tr, r) := report [task_id] ds w' in (w' :: tr, r)
    | (w', Some e) => ([w'], Some e)
    end.
Proof. simpl. by destruct (progress_hook task_id d w) as [w' [e|]]. Qed.

Lemma progress_hook_result (task_id : string) (d : event) (w : world) :
  (progress_hook task_id d w).2
  = if has_status d then None else Some (KeyError "status").
Proof.
  rewrite progress_hook_cases. unfold has_status.
  destruct (d !! "status") as [st|]; [|done].
  rewrite bool_decide_true by by eexists.
  destruct (reported d); [done|]. by destruct (String.eqb st "downloading").
Qed.

Lemma report_result (task_id : string) (ds : list event) (w : world) :
  (report [task_id] ds w).2
  = if forallb has_status ds then None else Some (KeyError "status").
Proof.
  revert w. induction ds as [|d ds IH]; intros w; [done|].
  rewrite report_one. cbn [forallb].
  pose proof (progress_hook_result task_id d w) as Hd.
  destruct (progress_hook task_id d w) as [w' [e|]]; simpl in Hd.
  - destruct (has_status d); [done|]. simpl. by injection Hd as ->.
  - destruct (has_status d); [|done]. simpl.
    specialize (IH w'). by destruct (report [task_id] ds w').
Qed.


Lemma progress_hook_irrelevant (task_id : string) (d : event) (w : world) :
  hook_relevant d = false -> progress_hook task_id d w = (w, None).
Proof.
  unfold hook_relevant, progress_hook.
  destruct (d !! "status") as [st|]; [|done].
  destruct (String.eqb st "downloading"); [done|].
  by destruct (String.eqb st "finished").
Qed.

Lemma report_only_relevant (task_id : string) (ds : list event) (w : world) :
  List.last (report [task_id] (filter (fun d => hook_relevant d = true) ds) w).1 w
  = List.last (report [task_id] ds w).1 w /\
  (report [task_id] (filter (fun d => hook_relevant d = true) ds) w).2
  = (report [task_id] ds w).2.
Proof.
  revert w. induction ds as [|d ds IH]; intros w; [done|].
  destruct (hook_relevant d) eqn:E.
  - rewrite filter_cons_True by done. rewrite !report_one.
    destruct (progress_hook task_id d w) as [w' [e|]]; [done|].
    destruct (IH w') as [IH1 IH2].
    destruct (report [task_id] (filter _ ds) w') as [tr1 r1].
    destruct (report [task_id] ds w') as [tr2 r2]. cbn [fst snd] in *.
    split; [|done]. by rewrite !last_cons.
  - rewrite filter_cons_False by (by rewrite E).
    rewrite report_one, (progress_hook_irrelevant _ _ _ E).
    destruct (IH w) as [IH1 IH2].
    destruct (report [task_id] ds w) as [tr2 r2]. cbn [fst snd] in *.
    split; [|done]. by rewrite last_cons.
Qed.

(** X4: events whose status is neither downloading nor finished have
    no effect: a run ends in the same world, with the same result, as the
    run without those events. *)
Theorem other_statuses_ignored (ydl : YoutubeDL) (task_id : string)
    (req : DownloadRequest) (w : world) :
  start_download (only_relevant ydl) task_id req w
  = start_download ydl task_id req w.
Proof.
  pose proof (report_only_relevant task_id
                (events (ydl (build_opts task_id req) (url req))) w)
    as [Hlast Hres].
  unfold start_download, start_download_trace, try_body, only_relevant.
  cbn [progress_hooks build_opts events written ending].
  destruct (report [task_id] (filter _ _) w) as [tr1 r1].
  destruct (report [task_id] _ w) as [tr2 r2]. simpl in Hlast, Hres.
  subst r2. rewrite Hlast.
  destruct r1 as [e|]; [|destruct (ending _) as [prepared|e]]; simpl;
    rewrite ?last_snoc2, ?last_snoc3, ?List.last_last; done.
Qed.

Lemma omap_cons_Some {A B} (f : A -> option B) (x : A) (y : B) (l : list A) :
  f x = Some y -> omap f (x :: l) = y :: omap f l.
Proof. intros H. simpl. by rewrite H. Qed.

Lemma omap_cons_None {A B} (f : A -> option B) (x : A) (l : list A) :
  f x = None -> omap f (x :: l) = omap f l.
Proof. intros H. simpl. by rewrite H. Qed.

(** One call of the hook: the answer to a poll is the reported value, or
    it has not changed. *)
Lemma progress_hook_poll (task_id : string) (d : event) (w : world) :
  (reported d = None /\
   progress task_id (progress_hook task_id d w).1 = progress task_id w) \/
  reported d = Some (progress task_id (progress_hook task_id d w).1).
Proof.
  rewrite progress_hook_cases. unfold progress.
  destruct (d !! "status") as [st|] eqn:Hst.
  - destruct (reported d) as [v|] eqn:Hrep.
    + right. simpl. by rewrite lookup_insert_eq.
    + left. split; [done|].
      destruct (String.eqb st "downloading"); [|done].
      simpl. rewrite lookup_insert_eq.
      by destruct (progress_store w !! task_id).
  - left. split; [|done]. unfold reported. by rewrite Hst.
Qed.

Lemma report_polls (task_id : string) (ds : list event) (w : world) :
  Forall (fun w' =>
            progress task_id w' = progress task_id w \/
            In (progress task_id w') (omap reported ds))
         (report [task_id] ds w).1.
Proof.
  revert w. induction ds as [|d ds IH]; intros w; [constructor|].
  rewrite report_one.
  pose proof (progress_hook_poll task_id d w) as Hd.
  destruct (progress_hook task_id d w) as [w1 [e|]]; cbn [fst] in Hd.
  - constructor; [|constructor].
    destruct Hd as [[_ H]|H]; [by left|right].
    rewrite (omap_cons_Some _ _ _ _ H). by left.
  - specialize (IH w1). destruct (report [task_id] ds w1) as [tr r].
    cbn [fst] in *. destruct Hd as [[Hnone Hsame]|Hsome].
    + rewrite (omap_cons_None _ _ _ Hnone). constructor; [by left|].
      eapply Forall_impl; [exact IH|]. simpl. intros w2 [H|H]; [|by right].
      left. congruence.
    + rewrite (omap_cons_Some _ _ _ _ Hsome). constructor; [right; by left|].
      eapply Forall_impl; [exact IH|]. simpl. intros w2 [H|H].
      * right. left. congruence.
      * right. by right.
Qed.

(** X5: whatever the library does, a poll of a task during its run and
    after it can only answer what it answered before the run, a value
    that an event of the run reports, 100.0 or -1. *)
Theorem poll_values_during_run (ydl : YoutubeDL) (task_id : string)
    (req : DownloadRequest) (w : world) :
  Forall (fun w' =>
            progress task_id w' = progress task_id w \/
            In (progress task_id w')
               (omap reported
                  (events (ydl (build_opts task_id req) (url req)))) \/
            progress task_id w' = PyF PyFloat.f100 \/
            progress task_id w' = PyI (-1))
         (start_download_trace ydl task_id req w).1.
Proof.
  pose proof (report_polls task_id
                (events (ydl (build_opts task_id req) (url req))) w) as Hrep.
  unfold start_download_trace, try_body. cbn [progress_hooks build_opts].
  destruct (report [task_id] _ w) as [tr r]. cbn [fst] in Hrep.
  set (P := fun w' : world => _ \/ _ \/ _ \/ _).
  assert (Htr : Forall P tr).
  { eapply Forall_impl; [exact Hrep|]. intros w' [H|H]; [by left|right; by left]. }
  assert (Hlast : P (List.last tr w)).
  { apply last_Forall; [exact Htr|by left]. }
  set (w1 := write_files _ (List.last tr w)).
  assert (Hfail :
    Forall P
      ((tr ++ [w1]) ++
       [set_progress task_id (PyI (-1)) (List.last (tr ++ [w1]) w);
        pop_file task_id
          (set_progress task_id (PyI (-1)) (List.last (tr ++ [w1]) w))])).
  { rewrite !Forall_app. split; [split|].
    - exact Htr.
    - constructor; [exact Hlast|constructor].
    - constructor; [|constructor; [|constructor]];
        unfold P; right; right; right; unfold progress; simpl;
        by rewrite lookup_insert_eq. }
  destruct r as [e|]; [exact Hfail|].
  destruct (ending _) as [prepared|e]; [|exact Hfail].
  cbn [fst]. rewrite Forall_app. split; [exact Htr|].
  constructor; [exact Hlast|]. constructor; [exact Hlast|].
  constructor; [|constructor].
  unfold P. right; right; left. unfold progress; simpl.
  by rewrite lookup_insert_eq.
Qed.

(** X6: while the library is still reporting events, a fetch of the task
    answers 404 and changes nothing, whatever progress the hook has
    stored, as long as no path was stored for the task before the run. *)
Theorem no_delivery_while_reporting (ydl : YoutubeDL) (task_id : string)
    (req : DownloadRequest) (w : world) :
  file_store w !! task_id = None ->
  Forall (fun w' =>
            download_file task_id w'
            = (w', HTTPException 404 "File not available", []))
         (report [task_id]
            (events (ydl (build_opts task_id req) (url req))) w).1.
Proof.
  intros Hnone.
  eapply Forall_impl; [apply report_keeps_files|].
  intros w' [Hf _]. unfold download_file. by rewrite Hf, Hnone.
Qed.

Lemma no_delivery_while_reporting_witness :
  let w := (download "t" Sample.video Sample.empty).1.1 in
  let w' := (progress_hook "t" (Sample.downloading "100%") w).1 in
  progress "t" w' = PyF PyFloat.f100 /\
  download_file "t" w' = (w', HTTPException 404 "File not available", []).
Proof.
  intros w w'. split; [vm_compute; reflexivity|].
  pose proof (no_delivery_while_reporting
                (fun _ _ => {| events := [Sample.downloading "100%"];
                               written := [];
                               ending := Returned "x" |})
                "t" Sample.video w eq_refl) as H.
  apply Forall_inv in H. exact H.
Defined.

(** ** Strings *)

Lemma str_app_cons (c : ascii) (a s : string) :
  String c a ++ s = String c (a ++ s).
Proof. reflexivity. Qed.

Lemma str_length_app (a s : string) :
  String.length (a ++ s) = (String.length a + String.length s)%nat.
Proof.
  induction a as [|c a IH]; [reflexivity|].
  rewrite str_app_cons. cbn [String.length]. by rewrite IH.
Qed.

Lemma str_app_inj_r (a b s : string) : a ++ s = b ++ s -> a = b.
Proof.
  revert b. induction a as [|c a IH]; intros [|c' b] H.
  - done.
  - change ("" ++ s) with s in H. apply (f_equal String.length) in H.
    rewrite str_length_app in H. cbn [String.length] in H. lia.
  - change ("" ++ s) with s in H. apply (f_equal String.length) in H.
    rewrite str_length_app in H. cbn [String.length] in H. lia.
  - rewrite !str_app_cons in H. injection H as -> H. f_equal. by apply IH.
Qed.

Lemma str_app_nonempty (a : string) (c : ascii) (s : string) :
  String.eqb (a ++ String c s) "" = false.
Proof. by destruct a. Qed.

(** ** Submission, run and fetch together *)

(** X7: a submission answers with the drawn identifier, stores progress
    0.0 for it, schedules exactly the orchestrated download of that
    identifier, and touches neither the result paths, nor the disk, nor
    the progress of any other task; a poll right after it answers 0.0,
    and a fetch right after it answers 404 when no path was stored under
    the identifier. *)
Theorem submit_effects (uuid4 : string) (req : DownloadRequest) (w : world) :
  let '(w', task_id, bg) := download uuid4 req w in
  task_id = uuid4 /\
  bg = [BgStartDownload uuid4 req] /\
  progress uuid4 w' = PyF (S754_zero false) /\
  file_store w' = file_store w /\
  disk w' = disk w /\
  (forall other, other <> uuid4 ->
                 progress_store w' !! other = progress_store w !! other) /\
  (file_store w !! uuid4 = None ->
   download_file uuid4 w'
   = (w', HTTPException 404 "File not available", [])).
Proof.
  unfold download. repeat split.
  - unfold progress. simpl. by rewrite lookup_insert_eq.
  - intros other Hne. simpl. by rewrite lookup_insert_ne.
  - intros Hnone. unfold download_file. simpl. by rewrite Hnone.
Qed.

Lemma submit_effects_witness :
  let w' := (download "t" Sample.video Sample.empty).1.1 in
  download_file "t" w' = (w', HTTPException 404 "File not available", []).
Proof.
  intros w'.
  pose proof (submit_effects "t" Sample.video Sample.empty) as H.
  cbn [download] in H. destruct H as (_ & _ & _ & _ & _ & _ & H).
  exact (H eq_refl).
Defined.

Lemma report_last_keeps (task_id : string) (ds : list event) (w : world) :
  file_store (List.last (report [task_id] ds w).1 w) = file_store w /\
  disk (List.last (report [task_id] ds w).1 w) = disk w.
Proof.
  apply (last_Forall
           (fun w' => file_store w' = file_store w /\ disk w' = disk w)).
  - apply report_keeps_files.
  - done.
Qed.

Lemma start_download_success (ydl : YoutubeDL) (task_id : string)
    (req : DownloadRequest) (w : world) (prepared : string) :
  let run := ydl (build_opts task_id req) (url req) in
  forallb has_status (events run) = true ->
  ending run = Returned prepared ->
  start_download ydl task_id req w
  = (set_progress task_id (PyF PyFloat.f100)
       (set_file task_id (final_path_of req prepared)
          (write_files (written run)
             (List.last (report [task_id] (events run) w).1 w))),
     None).
Proof.
  intros run Hst Hend.
  pose proof (report_result task_id (events run) w) as Hr.
  rewrite Hst in Hr.
  unfold start_download, start_download_trace, try_body, final_path_of.
  cbn [progress_hooks build_opts]. fold run.
  destruct (report [task_id] (events run) w) as [tr r]. cbn [fst snd] in *.
  subst r. rewrite Hend. cbn [fst snd]. rewrite last_snoc3.
  by destruct (String.eqb (type req) "video").
Qed.

(** X8: the whole life of a task.  When every event of the run has a
    status, the library returns, and the file under the recorded final
    path is among those it wrote, then after submission and run a fetch
    answers with that path, its base name and the octet-stream type and
    schedules the removal of that path; the removal succeeds and leaves
    no such file; and then a second fetch answers 404 and a poll 0.0. *)
Theorem lifecycle_delivers_once (ydl : YoutubeDL) (uuid4 : string)
    (req : DownloadRequest) (w : world) (prepared : string) :
  let run := ydl (build_opts uuid4 req) (url req) in
  let final := final_path_of req prepared in
  forallb has_status (events run) = true ->
  ending run = Returned prepared ->
  In final (written run) ->
  let w1 := (download uuid4 req w).1.1 in
  let w2 := (start_download ydl uuid4 req w1).1 in
  let w3 := (download_file uuid4 w2).1.1 in
  let w4 := (os_remove final w3).1 in
  download_file uuid4 w2
  = (w3,
     Ok {| path := final; filename := OsPath.basename final;
           media_type := "application/octet-stream" |},
     [BgRemove final]) /\
  (os_remove final w3).2 = None /\
  OsPath.exists_ (disk w4) final = false /\
  download_file uuid4 w4 = (w4, HTTPException 404 "File not available", []) /\
  progress uuid4 w4 = PyF (S754_zero false).
Proof.
  intros run final Hst Hend Hin w1 w2 w3 w4.
  assert (Hne : String.eqb final "" = false).
  { unfold final, final_path_of.
    destruct (String.eqb (type req) "video"); apply str_app_nonempty. }
  assert (Hw2 : w2 = set_progress uuid4 (PyF PyFloat.f100)
                       (set_file uuid4 final
                          (write_files (written run)
                             (List.last (report [uuid4] (events run) w1).1 w1)))).
  { unfold w2. by rewrite (start_download_success ydl uuid4 req w1 prepared). }
  assert (Hex : OsPath.exists_ (disk w2) final = true).
  { rewrite Hw2. unfold OsPath.exists_. rewrite Hne. simpl.
    apply bool_decide_eq_true. apply elem_of_union_l.
    apply elem_of_list_to_set. by apply list_elem_of_In. }
  assert (Hfetch : download_file uuid4 w2
                   = (pop_progress uuid4 (pop_file uuid4 w2),
                      Ok {| path := final; filename := OsPath.basename final;
                            media_type := "application/octet-stream" |},
                      [BgRemove final])).
  { unfold download_file.
    assert (Hf : file_store w2 !! uuid4 = Some final)
      by (rewrite Hw2; apply lookup_insert_eq).
    by rewrite Hf, Hne, Hex. }
  assert (Hw3 : w3 = pop_progress uuid4 (pop_file uuid4 w2))
    by (unfold w3; by rewrite Hfetch).
  assert (Hex3 : OsPath.exists_ (disk w3) final = true)
    by (by rewrite Hw3).
  assert (Hrm : os_remove final w3
                = (World (progress_store w3) (file_store w3)
                         (disk w3 ∖ {[final]}), None))
    by (unfold os_remove; by rewrite Hex3).
  assert (Hw4 : w4 = World (progress_store w3) (file_store w3)
                           (disk w3 ∖ {[final]}))
    by (unfold w4; by rewrite Hrm).
  split; [by rewrite Hw3|]. split; [by rewrite Hrm|].
  rewrite Hw4, Hw3. split; [|split].
  - unfold OsPath.exists_. rewrite Hne. simpl.
    apply bool_decide_eq_false.
    intros [_ Hn]%elem_of_difference. by apply Hn, elem_of_singleton.
  - unfold download_file. simpl. by rewrite lookup_delete_eq.
  - unfold progress. simpl. by rewrite lookup_delete_eq.
Qed.

Lemma lifecycle_delivers_once_witness :
  let w1 := (download "t" Sample.video Sample.empty).1.1 in
  let w2 := (start_download Sample.one_stream "t" Sample.video w1).1 in
  let w3 := (download_file "t" w2).1.1 in
  let w4 := (os_remove "/tmp/downloads/t_clip.mp4" w3).1 in
  (download_file "t" w2).1.2
  = Ok {| path := "/tmp/downloads/t_clip.mp4"; filename := "t_clip.mp4";
          media_type := "application/octet-stream" |} /\
  download_file "t" w4 = (w4, HTTPException 404 "File not available", []).
Proof.
  intros w1 w2 w3 w4.
  destruct (lifecycle_delivers_once Sample.one_stream "t" Sample.video
              Sample.empty "/tmp/downloads/t_clip.mp4")
    as (Hfetch & _ & _ & H404 & _).
  - vm_compute. reflexivity.
  - reflexivity.
  - vm_compute. by left.
  - split; [|exact H404].
    fold w1 w2 in Hfetch. rewrite Hfetch. reflexivity.
Defined.

(** ** The configuration, continued *)

(** X9: a video request configures no postprocessor, its format selector
    always asks for the best video plus the best audio with the plain
    best format as fallback, and a successful run records a path that
    ends in .mp4, whatever extension the prepared name has. *)
Theorem video_branch (ydl : YoutubeDL) (task_id : string)
    (req : DownloadRequest) (w : world) :
  type req = "video" ->
  postprocessors (build_opts task_id req) = None /\
  (exists filter,
     format (build_opts task_id req)
     = "bestvideo" ++ filter ++ "+bestaudio/best" /\
     (filter = "" \/ filter = "[height<=1080]" \/ filter = "[height<=720]")) /\
  ((start_download ydl task_id req w).2 = None ->
   exists base,
     file_store (start_download ydl task_id req w).1 !! task_id
     = Some (base ++ ".mp4")).
Proof.
  intros Hty. unfold build_opts; simpl. rewrite Hty. simpl.
  split; [done|]. split.
  - destruct (String.eqb (quality req) "1080");
      [|destruct (String.eqb (quality req) "720")].
    + exists "[height<=1080]". split; [reflexivity|]. right. by left.
    + exists "[height<=720]". split; [reflexivity|]. right. by right.
    + exists "". split; [reflexivity|]. by left.
  - unfold start_download, start_download_trace, try_body.
    rewrite Hty. simpl.
    destruct (report _ _ _) as [tr [e|]]; simpl; [done|].
    destruct (ending _) as [prepared|e]; simpl; [|done].
    intros _. eexists. rewrite last_snoc3. simpl.
    apply lookup_insert_eq.
Qed.

Lemma video_branch_witness :
  exists base,
    file_store
      (start_download Sample.two_streams "t" Sample.video Sample.empty).1 !! "t"
    = Some (base ++ ".mp4").
Proof.
  apply (video_branch Sample.two_streams "t" Sample.video Sample.empty).
  - reflexivity.
  - vm_compute. reflexivity.
Defined.

(** X10: the output template lies in the download directory and carries
    the task id, so two tasks with different ids never share a
    template. *)
Theorem outtmpl_per_task (t1 t2 : string) (r1 r2 : DownloadRequest) :
  outtmpl (build_opts t1 r1) = "/tmp/downloads/" ++ t1 ++ "_%(title)s.%(ext)s" /\
  (t1 <> t2 -> outtmpl (build_opts t1 r1) <> outtmpl (build_opts t2 r2)).
Proof.
  split; [reflexivity|]. unfold build_opts, DOWNLOAD_DIR. cbn [outtmpl].
  intros Hne H. apply Hne.
  assert (H' : t1 ++ "_%(title)s.%(ext)s" = t2 ++ "_%(title)s.%(ext)s").
  { change ("/tmp/downloads" ++ "/" ++ t1 ++ "_%(title)s.%(ext)s")
      with ("/tmp/downloads/" ++ (t1 ++ "_%(title)s.%(ext)s")) in H.
    change ("/tmp/downloads" ++ "/" ++ t2 ++ "_%(title)s.%(ext)s")
      with ("/tmp/downloads/" ++ (t2 ++ "_%(title)s.%(ext)s")) in H.
    cbv [String.append] in H. by injection H. }
  exact (str_app_inj_r _ _ _ H').
Qed.

Lemma outtmpl_per_task_witness :
  outtmpl (build_opts "t" Sample.video) <> outtmpl (build_opts "u" Sample.video).
Proof.
  apply (outtmpl_per_task "t" "u" Sample.video Sample.video). discriminate.
Defined.

(** ** Isolation of tasks *)

(** X11: an operation that is about one task (a submission, a poll, a
    fetch or the orchestrated download of that task) or about none (the
    removal of a file) leaves the progress and the result path of every
    other task as they were; only the removal of a file changes the
    disk contents among the requests, the orchestrated download adding
    what the library writes. *)
Theorem step_isolated (ydl : YoutubeDL) (o : op) (w : world) (other : string) :
  op_target o <> Some other ->
  progress_store (step ydl o w) !! other = progress_store w !! other /\
  file_store (step ydl o w) !! other = file_store w !! other /\
  progress other (step ydl o w) = progress other w.
Proof.
  intros Ho.
  assert (H : same_at other w (step ydl o w)).
  { destruct o as [u req|t|t|[t req|p]]; simpl in *.
    - split; simpl; [|done]. apply lookup_insert_ne. congruence.
    - apply same_at_refl.
    - unfold download_file.
      destruct (file_store w !! t) as [p|]; [|apply same_at_refl].
      destruct (String.eqb p "" || negb (OsPath.exists_ (disk w) p));
        [apply same_at_refl|].
      split; simpl; apply lookup_delete_ne; congruence.
    - apply start_download_other. congruence.
    - unfold os_remove. by destruct (OsPath.exists_ (disk w) p). }
  destruct H as [Hp Hf]. split; [done|]. split; [done|].
  unfold progress. by rewrite Hp.
Qed.

Lemma step_isolated_witness :
  let w := (start_download Sample.one_stream "t" Sample.video
              (download "t" Sample.video Sample.empty).1.1).1 in
  progress "t" (step Sample.failing
                  (OpBackground (BgStartDownload "u" Sample.video)) w)
  = progress "t" w.
Proof.
  intros w.
  apply (step_isolated Sample.failing
           (OpBackground (BgStartDownload "u" Sample.video)) w "t").
  discriminate.
Defined.

(** X12: while a task's orchestrated download is running, at every
    point of it, the progress and the result path of every other task
    are what they were when it started. *)
Theorem start_download_isolated (ydl : YoutubeDL) (task_id : string)
    (req : DownloadRequest) (w : world) (other : string) :
  other <> task_id ->
  Forall (fun w' =>
            progress_store w' !! other = progress_store w !! other /\
            file_store w' !! other = file_store w !! other)
         (start_download_trace ydl task_id req w).1.
Proof.
  intros Hne.
  assert (Hrep := report_other other [task_id]
                    (events (ydl (build_opts task_id req) (url req))) w
                    ltac:(repeat constructor; congruence)).
  unfold start_download_trace, try_body. cbn [progress_hooks build_opts].
  destruct (report [task_id] _ w) as [tr r]. cbn [fst] in Hrep.
  assert (Hlast : same_at other w (List.last tr w))
    by (apply last_Forall; [done|apply same_at_refl]).
  set (w1 := write_files _ (List.last tr w)).
  assert (Hw1 : same_at other w w1) by exact Hlast.
  destruct Hw1 as [Hp Hf].
  assert (Hfail :
    Forall (same_at other w)
      ((tr ++ [w1]) ++
       [set_progress task_id (PyI (-1)) (List.last (tr ++ [w1]) w);
        pop_file task_id
          (set_progress task_id (PyI (-1)) (List.last (tr ++ [w1]) w))])).
  { rewrite List.last_last, !Forall_app. split; [split|].
    - exact Hrep.
    - constructor; [by split|constructor].
    - constructor; [|constructor; [|constructor]]; split; simpl;
        rewrite ?lookup_delete_ne, ?lookup_insert_ne by done; done. }
  destruct r as [e|]; [exact Hfail|].
  destruct (ending _) as [prepared|e]; [|exact Hfail].
  cbn [fst]. apply Forall_app. split; [exact Hrep|].
  constructor; [by split|].
  constructor; [|constructor; [|constructor]]; split; simpl;
    rewrite ?lookup_insert_ne by done; done.
Qed.

Lemma start_download_isolated_witness :
  let w := set_progress "u" (PyF PyFloat.f99) Sample.empty in
  Forall (fun w' => progress_store w' !! "u" = Some (PyF PyFloat.f99))
         (start_download_trace Sample.two_streams "t" Sample.video w).1.
Proof.
  intros w.
  pose proof (start_download_isolated Sample.two_streams "t" Sample.video w "u")
    as H.
  eapply Forall_impl; [apply H; discriminate|].
  intros w' [Hp _]. rewrite Hp. reflexivity.
Defined.

(** ** The file name of a response *)









(** ** An invariant of the result paths *)

Lemma start_download_files (ydl : YoutubeDL) (task_id : string)
    (req : DownloadRequest) (w : world) :
  file_store (start_download ydl task_id req w).1
  = delete task_id (file_store w) \/
  exists prepared,
    file_store (start_download ydl task_id req w).1
    = <[task_id := final_path_of req prepared]> (file_store w).
Proof.
  destruct (report_last_keeps task_id
              (events (ydl (build_opts task_id req) (url req))) w)
    as [Hf _].
  unfold start_download, start_download_trace, try_body, final_path_of.
  cbn [progress_hooks build_opts].
  destruct (report [task_id] _ w) as [tr r]. cbn [fst] in Hf.
  destruct r as [e|]; [|destruct (ending _) as [prepared|e]]; cbn [fst snd];
    rewrite ?last_snoc2, ?last_snoc3, ?List.last_last; simpl; rewrite Hf.
  - by left.
  - right. exists prepared. by destruct (String.eqb (type req) "video").
  - by left.
Qed.

Lemma step_keeps_paths_ok (ydl : YoutubeDL) (o : op) (w : world) :
  stored_paths_ok w -> stored_paths_ok (step ydl o w).
Proof.
  intros Hok. destruct o as [u req|t|t|[t req|p]]; simpl.
  - exact Hok.
  - exact Hok.
  - unfold download_file.
    destruct (file_store w !! t) as [p|]; [|exact Hok].
    destruct (String.eqb p "" || negb (OsPath.exists_ (disk w) p));
      [exact Hok|].
    intros tid q Hq. simpl in Hq.
    apply lookup_delete_Some in Hq as [_ Hq]. by apply (Hok tid).
  - intros tid q Hq.
    destruct (start_download_files ydl t req w) as [H|[prepared H]];
      rewrite H in Hq.
    + apply lookup_delete_Some in Hq as [_ Hq]. by apply (Hok tid).
    + apply lookup_insert_Some in Hq as [[_ <-]|[_ Hq]]; [|by apply (Hok tid)].
      unfold media_path, final_path_of. eexists.
      destruct (String.eqb (type req) "video"); [by left|by right].
  - unfold os_remove. by destruct (OsPath.exists_ (disk w) p).
Qed.

(** X14: starting with both dictionaries empty, after any sequence of
    requests and background tasks every stored result path ends in .mp4
    or .mp3, so it is never the empty string. *)
Theorem stored_paths_are_media_paths (ydl : YoutubeDL) (os : list op)
    (files : gset string) (task_id p : string) :
  file_store (steps ydl os (World ∅ ∅ files)) !! task_id = Some p ->
  media_path p /\ p <> "".
Proof.
  assert (Hok : stored_paths_ok (steps ydl os (World ∅ ∅ files))).
  { unfold steps.
    assert (H0 : stored_paths_ok (World ∅ ∅ files)) by (by intros tid q Hq).
    revert H0. generalize (World ∅ ∅ files).
    induction os as [|o os IH]; intros w Hw; [exact Hw|].
    simpl. apply IH. by apply step_keeps_paths_ok. }
  intros Hp. pose proof (Hok task_id p Hp) as Hm. split; [exact Hm|].
  destruct Hm as [base [->| ->]]; intros H;
    apply (f_equal (fun s => String.eqb s "")) in H;
    by rewrite str_app_nonempty in H.
Qed.

Lemma stored_paths_are_media_paths_witness :
  media_path "/tmp/downloads/t_clip.mp4".
Proof.
  apply (stored_paths_are_media_paths Sample.one_stream
           [OpDownload "t" Sample.video;
            OpBackground (BgStartDownload "t" Sample.video)]
           ∅ "t" "/tmp/downloads/t_clip.mp4").
  vm_compute. reflexivity.
Defined.
